(** * Registry provider detection and login dispatch

    A shallow embedding of [oci/auth/login/login.go] (package [login] of
    fluxcd/pkg): the classifier [ImageRegistryProvider] and the login
    [Manager] with its constructor, its three override setters and [Login].

    Conventions.
    - Go pointers are [ptr]: [None] is [nil], [Some l] is the address [l] of
      an object in the heap.  A [*Manager] is such a pointer, so the setters
      really update the object in place and hand back the pointer they got.
    - Code that touches the heap or calls a provider client runs in the
      monad [M]: a state transformer that may panic (a nil dereference).
    - The packages [aws], [gcp] and [azure] are imported by login.go and are
      not part of it.  What login.go calls from them ([aws.ParseImage],
      [gcp.ValidHost], [azure.ValidHost], the three [Client.Login] methods)
      is taken as a parameter of the development, so every statement holds
      for every behaviour of those callees. *)

From Stdlib Require Import String.
From stdpp Require Import gmap.

Local Open Scope string_scope.

(** ** Package [oci]: the provider tags *)

Module oci.

Inductive Provider : Type :=
| ProviderGeneric
| ProviderAWS
| ProviderGCP
| ProviderAzure.

#[global] Instance Provider_eq_dec : EqDecision Provider.
Proof. solve_decision. Defined.

End oci.

(** ** Package [name] of go-containerregistry: parsed references

    A [name.Reference] is what the external parser returns on success: a
    [name.Tag] or a [name.Digest], each embedding the [name.Repository] it
    lives in, which embeds its [name.Registry].  The nil interface value,
    which the parser hands out only together with an error, is not a
    reference and is outside this type; a Go value of the interface type,
    nil or a reference, is an [option Reference] (see [Context_nilable]). *)

Module name.

Record Registry : Type := mkRegistry {
  insecure : bool;
  registry : string
}.

Record Repository : Type := mkRepository {
  Repository_Registry : Registry;
  repository : string
}.

Record Tag : Type := mkTag {
  Tag_Repository : Repository;
  tag : string
}.

Record Digest : Type := mkDigest {
  Digest_Repository : Repository;
  digest : string
}.

Inductive Reference : Type :=
| TagRef (t : Tag)
| DigestRef (d : Digest).

(** [Context()] accesses the repository of a reference. *)
Definition Context (ref : Reference) : Repository :=
  match ref with
  | TagRef t => Tag_Repository t
  | DigestRef d => Digest_Repository d
  end.

(** [RegistryStr()] is promoted from the embedded [Registry]. *)
Definition RegistryStr (r : Repository) : string :=
  registry (Repository_Registry r).

(** [Identifier()] is the tag or the digest. *)
Definition Identifier (ref : Reference) : string :=
  match ref with
  | TagRef t => tag t
  | DigestRef d => digest d
  end.

(** [ref.Context()] on a Go value of the interface type: [None] is the nil
    interface, on which the method call panics (the result [None]). *)
Definition Context_nilable (ref : option Reference) : option Repository :=
  match ref with
  | Some r => Some (Context r)
  | None => None
  end.

End name.

(** ** Pointers and heap objects *)

Definition loc : Type := positive.

(** A Go pointer: [None] is [nil]. *)
Definition ptr : Type := option loc.

(** [type Manager struct { ecr *aws.Client; gcr *gcp.Client; acr *azure.Client }] *)
Record Manager : Type := mkManager {
  ecr : ptr;
  gcr : ptr;
  acr : ptr
}.

(** What an address can hold.  The three client structs are opaque to
    login.go: it only stores and passes on their addresses. *)
Inductive Object : Type :=
| ManagerObj (m : Manager)
| aws_ClientObj
| gcp_ClientObj
| azure_ClientObj.

(** [type ProviderOptions struct { AwsAutoLogin, GcpAutoLogin, AzureAutoLogin bool }] *)
Record ProviderOptions : Type := mkProviderOptions {
  AwsAutoLogin : bool;
  GcpAutoLogin : bool;
  AzureAutoLogin : bool
}.

(** ** Test doubles

    Concrete stand-ins for the callees that login.go imports, used to run
    the embedding on examples.  No theorem below depends on them: the
    theorems are stated for every callee. *)

Module doubles.

(** [strings.HasSuffix(s, suffix)]. *)
Definition HasSuffix (s suffix : string) : bool :=
  let n := String.length s in
  let k := String.length suffix in
  (k <=? n)%nat && String.eqb (substring (n - k) k s) suffix.

(** [strings.Contains(s, substr)]. *)
Definition Contains (s substr : string) : bool :=
  match index 0 substr s with
  | Some _ => true
  | None => false
  end.

(** Modelled from the spec: [aws.ParseImage] is not part of login.go.  The
    spec describes "a pattern recognizing account-id/region-encoded ECR
    hostnames, optionally embedded in a pull-through-cache path"; the double
    accepts an image that mentions an ECR endpoint of amazonaws.com anywhere
    and leaves account id and region empty (login.go discards both). *)
Definition ParseImage (image : string) : string * string * bool :=
  ("", "", Contains image ".dkr.ecr." && Contains image ".amazonaws.com").

(** Modelled from the spec: [gcp.ValidHost] is not part of login.go.  The
    spec names "the known GCP registry host suffix set (e.g. gcr.io,
    *.pkg.dev regional Artifact Registry hosts)". *)
Definition gcp_ValidHost (host : string) : bool :=
  String.eqb host "gcr.io" || HasSuffix host ".gcr.io" || HasSuffix host ".pkg.dev".

(** Modelled from the spec: [azure.ValidHost] is not part of login.go.  The
    spec names "the known Azure Container Registry host suffix (e.g.
    *.azurecr.io)". *)
Definition azure_ValidHost (host : string) : bool :=
  HasSuffix host ".azurecr.io".

(** A reference with tag [t] in repository [repo] of registry [host]. *)
Definition tagged (host repo t : string) : name.Reference :=
  name.TagRef (name.mkTag (name.mkRepository (name.mkRegistry false host) repo) t).

(** A reference by digest [d] in repository [repo] of registry [host]. *)
Definition digested (host repo d : string) : name.Reference :=
  name.DigestRef (name.mkDigest (name.mkRepository (name.mkRegistry false host) repo) d).

(** A client double in the style of a recording test client: the outside
    world is the number of credential requests served so far; a request on
    a nil client panics, a request with auto-login off fails, any other is
    answered with a token that tells which client served which request. *)
Definition client_Login (who : string) (c : ptr) (autoLogin : bool) (image : string)
  (served : nat) : option ((option string * option string) * nat) :=
  match c with
  | None => None
  | Some _ =>
      if autoLogin
      then Some ((Some (who ++ ":" ++ image), None), S served)
      else Some ((None, Some (who ++ ": unconfigured provider")), S served)
  end.

(** The three clients of login.go, as doubles with a [unit] context. *)
Definition aws_Client_Login (c : ptr) (ctx : unit) (autoLogin : bool) (image : string)
  : nat -> option ((option string * option string) * nat) :=
  client_Login "ecr" c autoLogin image.

Definition gcp_Client_Login (c : ptr) (ctx : unit) (autoLogin : bool) (image : string)
  (ref : name.Reference) : nat -> option ((option string * option string) * nat) :=
  client_Login "gcr" c autoLogin image.

Definition azure_Client_Login (c : ptr) (ctx : unit) (autoLogin : bool) (image : string)
  (ref : name.Reference) : nat -> option ((option string * option string) * nat) :=
  client_Login "acr" c autoLogin image.

(** The images of the example scenarios. *)
Definition ecr_image : string :=
  "123456789012.dkr.ecr.us-west-2.amazonaws.com/my-repo:v1".
Definition ecr_host : string := "123456789012.dkr.ecr.us-west-2.amazonaws.com".
Definition gcr_image : string := "gcr.io/my-project/my-repo".
Definition acr_image : string := "myregistry.azurecr.io/my-repo".
Definition hub_image : string := "docker.io/library/nginx".

(** A heap with a manager at address 1 that holds the clients at 2, 3 and
    4, and a spare ECR client at 5 to override with. *)
Definition manager0 : Manager := mkManager (Some 2%positive) (Some 3%positive) (Some 4%positive).

Definition heap0 : gmap loc Object :=
  {[ 1%positive := ManagerObj manager0;
     2%positive := aws_ClientObj;
     3%positive := gcp_ClientObj;
     4%positive := azure_ClientObj;
     5%positive := aws_ClientObj ]}.

(** Every auto-login on, and every auto-login off. *)
Definition all_on : ProviderOptions := mkProviderOptions true true true.
Definition all_off : ProviderOptions := mkProviderOptions false false false.

End doubles.

(** ** Package [login] *)

Module login.

Local Open Scope list_scope.

Section Login.

(** *** The classifier *)

(** [aws.ParseImage(image) (accountId, awsEcrRegion string, ok bool)]. *)
Variable aws_ParseImage : string -> string * string * bool.
(** [gcp.ValidHost(host) bool] and [azure.ValidHost(host) bool]. *)
Variable gcp_ValidHost : string -> bool.
Variable azure_ValidHost : string -> bool.

(** [func ImageRegistryProvider(image string, ref name.Reference) oci.Provider] *)
Definition ImageRegistryProvider (image : string) (ref : name.Reference) : oci.Provider :=
  let '(_, _, ok) := aws_ParseImage image in
  if ok then oci.ProviderAWS
  else if gcp_ValidHost (name.RegistryStr (name.Context ref)) then oci.ProviderGCP
  else if azure_ValidHost (name.RegistryStr (name.Context ref)) then oci.ProviderAzure
  else oci.ProviderGeneric.

(** [ImageRegistryProvider] on a Go value [ref] of the interface type,
    which may be nil: the two calls [ref.Context()] of the source are kept,
    and the result [None] is the panic of the first one reached on a nil
    [ref].  On a reference it is [ImageRegistryProvider] above. *)
Definition ImageRegistryProvider_nilable (image : string) (ref : option name.Reference)
  : option oci.Provider :=
  let '(_, _, ok) := aws_ParseImage image in
  if ok then Some oci.ProviderAWS
  else
    match name.Context_nilable ref with
    | None => None
    | Some repo =>
        if gcp_ValidHost (name.RegistryStr repo) then Some oci.ProviderGCP
        else
          match name.Context_nilable ref with
          | None => None
          | Some repo' =>
              if azure_ValidHost (name.RegistryStr repo') then Some oci.ProviderAzure
              else Some oci.ProviderGeneric
          end
    end.

(** *** State, client calls and the monad *)

(** [context.Context], [authn.Authenticator] and [error] are opaque to
    login.go, and so is whatever the provider clients talk to. *)
Variables (context_Context Authenticator go_error World : Type).

(** Go's [(authn.Authenticator, error)]: each component may be nil. *)
Definition LoginResult : Type := (option Authenticator * option go_error)%type.

(** One invocation of a provider client's [Login], with its receiver and
    the arguments it was given. *)
Inductive Call : Type :=
| ECRLogin (c : ptr) (ctx : context_Context) (autoLogin : bool) (image : string)
| GCRLogin (c : ptr) (ctx : context_Context) (autoLogin : bool) (image : string)
    (ref : name.Reference)
| ACRLogin (c : ptr) (ctx : context_Context) (autoLogin : bool) (image : string)
    (ref : name.Reference).

(** The provider whose client a call went to, and the client it went to. *)
Definition Call_provider (k : Call) : oci.Provider :=
  match k with
  | ECRLogin _ _ _ _ => oci.ProviderAWS
  | GCRLogin _ _ _ _ _ => oci.ProviderGCP
  | ACRLogin _ _ _ _ _ => oci.ProviderAzure
  end.

Definition Call_receiver (k : Call) : ptr :=
  match k with
  | ECRLogin c _ _ _ => c
  | GCRLogin c _ _ _ _ => c
  | ACRLogin c _ _ _ _ => c
  end.

(** The program state: the heap, the world outside the process, and the
    record of every client call made so far, oldest first. *)
Record State : Type := mkState {
  heap : gmap loc Object;
  world : World;
  calls : list Call
}.

(** A run either returns a value in a new state or panics. *)
Inductive outcome (A : Type) : Type :=
| Returned (a : A) (s : State)
| Panicked.

Arguments Returned {A} a s.
Arguments Panicked {A}.

Definition M (A : Type) : Type := State -> outcome A.

Definition ret {A : Type} (a : A) : M A := fun s => Returned a s.

Definition bind {A B : Type} (c : M A) (k : A -> M B) : M B :=
  fun s =>
    match c s with
    | Returned a s' => k a s'
    | Panicked => Panicked
    end.

Notation "x <- c1 ;; c2" := (bind c1 (fun x => c2))
  (at level 100, c1 at next level, right associativity).
Notation "c1 ;; c2" := (bind c1 (fun _ => c2))
  (at level 100, right associativity).

(** [&T{...}]: a new object at an address that was not in use. *)
Definition alloc (o : Object) : M ptr :=
  fun s =>
    let l := fresh (dom (heap s)) in
    Returned (Some l) (mkState (<[l := o]> (heap s)) (world s) (calls s)).

(** Reading the fields of [*m]; a nil [m] panics. *)
Definition load (m : ptr) : M Manager :=
  fun s =>
    match m with
    | Some l =>
        match heap s !! l with
        | Some (ManagerObj mgr) => Returned mgr s
        | _ => Panicked
        end
    | None => Panicked
    end.

(** Writing the fields of [*m]; a nil [m] panics. *)
Definition store (m : ptr) (mgr : Manager) : M unit :=
  fun s =>
    match m with
    | Some l =>
        match heap s !! l with
        | Some (ManagerObj _) =>
            Returned tt (mkState (<[l := ManagerObj mgr]> (heap s)) (world s) (calls s))
        | _ => Panicked
        end
    | None => Panicked
    end.

(** A call out of login.go into a provider client: the callee sees and
    changes the outside world only, answers or panics, and the call is
    recorded. *)
Definition invoke (k : Call) (callee : World -> option (LoginResult * World)) : M LoginResult :=
  fun s =>
    match callee (world s) with
    | Some (r, w) => Returned r (mkState (heap s) w (calls s ++ [k]))
    | None => Panicked
    end.

(** [func (c *aws.Client) Login(ctx, autoLogin bool, image string)],
    [func (c *gcp.Client) Login(ctx, autoLogin bool, image string, ref name.Reference)],
    [func (c *azure.Client) Login(ctx, autoLogin bool, image string, ref name.Reference)]:
    each returns [(authn.Authenticator, error)]. *)
Variable aws_Client_Login :
  ptr -> context_Context -> bool -> string -> World -> option (LoginResult * World).
Variable gcp_Client_Login :
  ptr -> context_Context -> bool -> string -> name.Reference ->
  World -> option (LoginResult * World).
Variable azure_Client_Login :
  ptr -> context_Context -> bool -> string -> name.Reference ->
  World -> option (LoginResult * World).

Definition ecr_Login (c : ptr) (ctx : context_Context) (autoLogin : bool) (image : string)
  : M LoginResult :=
  invoke (ECRLogin c ctx autoLogin image) (aws_Client_Login c ctx autoLogin image).

Definition gcr_Login (c : ptr) (ctx : context_Context) (autoLogin : bool) (image : string)
  (ref : name.Reference) : M LoginResult :=
  invoke (GCRLogin c ctx autoLogin image ref) (gcp_Client_Login c ctx autoLogin image ref).

Definition acr_Login (c : ptr) (ctx : context_Context) (autoLogin : bool) (image : string)
  (ref : name.Reference) : M LoginResult :=
  invoke (ACRLogin c ctx autoLogin image ref) (azure_Client_Login c ctx autoLogin image ref).

(** Modelled from the spec: [aws.NewClient], [gcp.NewClient] and
    [azure.NewClient] are not part of login.go.  The spec has the
    constructor build "a Manager with the three standard provider clients"
    that holds "no live connections, only configuration for on-demand
    calls": each is the allocation of a new client object. *)
Definition aws_NewClient : M ptr := alloc aws_ClientObj.
Definition gcp_NewClient : M ptr := alloc gcp_ClientObj.
Definition azure_NewClient : M ptr := alloc azure_ClientObj.

(** *** The manager *)

(** [func NewManager() *Manager] *)
Definition NewManager : M ptr :=
  e <- aws_NewClient ;;
  g <- gcp_NewClient ;;
  a <- azure_NewClient ;;
  alloc (ManagerObj (mkManager e g a)).

(** [func (m *Manager) WithECRClient(c *aws.Client) *Manager] *)
Definition WithECRClient (m : ptr) (c : ptr) : M ptr :=
  mgr <- load m ;;
  store m (mkManager c (gcr mgr) (acr mgr)) ;;
  ret m.

(** [func (m *Manager) WithGCRClient(c *gcp.Client) *Manager] *)
Definition WithGCRClient (m : ptr) (c : ptr) : M ptr :=
  mgr <- load m ;;
  store m (mkManager (ecr mgr) c (acr mgr)) ;;
  ret m.

(** [func (m *Manager) WithACRClient(c *azure.Client) *Manager] *)
Definition WithACRClient (m : ptr) (c : ptr) : M ptr :=
  mgr <- load m ;;
  store m (mkManager (ecr mgr) (gcr mgr) c) ;;
  ret m.

(** [func (m *Manager) Login(ctx, image string, ref name.Reference, opts ProviderOptions)
      (authn.Authenticator, error)] *)
Definition Login (m : ptr) (ctx : context_Context) (image : string) (ref : name.Reference)
  (opts : ProviderOptions) : M LoginResult :=
  match ImageRegistryProvider image ref with
  | oci.ProviderAWS =>
      mgr <- load m ;; ecr_Login (ecr mgr) ctx (AwsAutoLogin opts) image
  | oci.ProviderGCP =>
      mgr <- load m ;; gcr_Login (gcr mgr) ctx (GcpAutoLogin opts) image ref
  | oci.ProviderAzure =>
      mgr <- load m ;; acr_Login (acr mgr) ctx (AzureAutoLogin opts) image ref
  | oci.ProviderGeneric => ret (None, None)
  end.

(** *** Callers: a series of logins on one manager *)

Record Request : Type := mkRequest {
  req_ctx : context_Context;
  req_image : string;
  req_ref : name.Reference;
  req_opts : ProviderOptions
}.

Fixpoint Logins (m : ptr) (reqs : list Request) : M (list LoginResult) :=
  match reqs with
  | [] => ret []
  | q :: reqs' =>
      r <- Login m (req_ctx q) (req_image q) (req_ref q) (req_opts q) ;;
      rs <- Logins m reqs' ;;
      ret (r :: rs)
  end.

(** The call [k] went to the client that the manager [mgr] holds for the
    provider of [k]. *)
Definition served_by (mgr : Manager) (k : Call) : Prop :=
  match k with
  | ECRLogin c _ _ _ => c = ecr mgr
  | GCRLogin c _ _ _ _ => c = gcr mgr
  | ACRLogin c _ _ _ _ => c = acr mgr
  end.

(** ** The classifier: precedence and totality *)

(** The classifier as a decision table over the three tests. *)
Lemma ImageRegistryProvider_table image ref :
  ImageRegistryProvider image ref =
    if (aws_ParseImage image).2 then oci.ProviderAWS
    else if gcp_ValidHost (name.RegistryStr (name.Context ref)) then oci.ProviderGCP
    else if azure_ValidHost (name.RegistryStr (name.Context ref)) then oci.ProviderAzure
    else oci.ProviderGeneric.
Proof.
  unfold ImageRegistryProvider.
  destruct (aws_ParseImage image) as [[accountId awsEcrRegion] ok]; reflexivity.
Qed.

(** C1: an image that [aws.ParseImage] accepts is classified AWS, whatever
    the reference is and whatever the GCP and Azure host tests would say of
    its registry host: the AWS test comes first. *)
Theorem ImageRegistryProvider_aws_first image ref :
  (aws_ParseImage image).2 = true ->
  ImageRegistryProvider image ref = oci.ProviderAWS.
Proof.
  intros Hok. rewrite ImageRegistryProvider_table, Hok. reflexivity.
Qed.

(** On a reference, the classifier on interface values returns what
    [ImageRegistryProvider] returns. *)
Lemma ImageRegistryProvider_nilable_Some image (r : name.Reference) :
  ImageRegistryProvider_nilable image (Some r) = Some (ImageRegistryProvider image r).
Proof.
  unfold ImageRegistryProvider_nilable, ImageRegistryProvider. simpl.
  destruct (aws_ParseImage image) as [[accountId awsEcrRegion] ok].
  destruct ok; [reflexivity|].
  destruct (gcp_ValidHost _); [reflexivity|].
  destruct (azure_ValidHost _); reflexivity.
Qed.

(** On the nil interface the classifier answers AWS for an image that
    [aws.ParseImage] accepts and panics for every other image. *)
Lemma ImageRegistryProvider_nilable_None image :
  ImageRegistryProvider_nilable image None =
    if (aws_ParseImage image).2 then Some oci.ProviderAWS else None.
Proof.
  unfold ImageRegistryProvider_nilable. simpl.
  destruct (aws_ParseImage image) as [[accountId awsEcrRegion] ok].
  destruct ok; reflexivity.
Qed.

(** C2 (as amended): for every image and every non-nil reference [Some r]
    the classifier returns, without a panic, exactly one tag among AWS,
    GCP, Azure and Generic, and the tag is Generic exactly when the image is
    not an ECR image and the registry host passes neither the GCP nor the
    Azure test. *)
Theorem ImageRegistryProvider_total_non_nil image (r : name.Reference) :
  (exists p : oci.Provider,
      ImageRegistryProvider_nilable image (Some r) = Some p /\
      p ∈ [oci.ProviderAWS; oci.ProviderGCP; oci.ProviderAzure; oci.ProviderGeneric] /\
      forall q : oci.Provider,
        ImageRegistryProvider_nilable image (Some r) = Some q -> q = p) /\
  (ImageRegistryProvider_nilable image (Some r) = Some oci.ProviderGeneric <->
     (aws_ParseImage image).2 = false /\
     gcp_ValidHost (name.RegistryStr (name.Context r)) = false /\
     azure_ValidHost (name.RegistryStr (name.Context r)) = false).
Proof.
  rewrite ImageRegistryProvider_nilable_Some. split.
  - exists (ImageRegistryProvider image r). split; [reflexivity | split].
    + destruct (ImageRegistryProvider image r); set_solver.
    + intros q [= Hq]. symmetry. exact Hq.
  - rewrite ImageRegistryProvider_table.
    destruct ((aws_ParseImage image).2),
      (gcp_ValidHost (name.RegistryStr (name.Context r))),
      (azure_ValidHost (name.RegistryStr (name.Context r))); simpl; split; intros H;
      try discriminate H; try reflexivity; try (repeat split; reflexivity);
      destruct H as (H1 & H2 & H3); discriminate.
Qed.

(** C6: an image that is not an ECR image, with a reference whose registry
    host passes the GCP test, is classified GCP. *)
Theorem ImageRegistryProvider_gcp image ref :
  (aws_ParseImage image).2 = false ->
  gcp_ValidHost (name.RegistryStr (name.Context ref)) = true ->
  ImageRegistryProvider image ref = oci.ProviderGCP.
Proof.
  intros Haws Hgcp. rewrite ImageRegistryProvider_table, Haws, Hgcp. reflexivity.
Qed.

(** C7: an image that is not an ECR image, with a reference whose registry
    host fails the GCP test and passes the Azure test, is classified Azure. *)
Theorem ImageRegistryProvider_azure image ref :
  (aws_ParseImage image).2 = false ->
  gcp_ValidHost (name.RegistryStr (name.Context ref)) = false ->
  azure_ValidHost (name.RegistryStr (name.Context ref)) = true ->
  ImageRegistryProvider image ref = oci.ProviderAzure.
Proof.
  intros Haws Hgcp Hazure.
  rewrite ImageRegistryProvider_table, Haws, Hgcp, Hazure. reflexivity.
Qed.

(** C9: the classifier reads the image string and the registry host of the
    reference and nothing else: two references with the same registry host
    get the same tag, whatever their repository, tag or digest. *)
Theorem ImageRegistryProvider_host_only image ref1 ref2 :
  name.RegistryStr (name.Context ref1) = name.RegistryStr (name.Context ref2) ->
  ImageRegistryProvider image ref1 = ImageRegistryProvider image ref2.
Proof.
  intros Hhost. rewrite !ImageRegistryProvider_table, Hhost. reflexivity.
Qed.

(** ** The manager: dispatch *)

Lemma load_live l mgr s :
  heap s !! l = Some (ManagerObj mgr) -> load (Some l) s = Returned mgr s.
Proof. intros Hl. unfold load. rewrite Hl. reflexivity. Qed.

(** On a live manager, [Login] is the call of the client that the manager
    holds for the provider of the image, and nothing else. *)
Lemma Login_live l mgr ctx image ref opts s :
  heap s !! l = Some (ManagerObj mgr) ->
  Login (Some l) ctx image ref opts s =
    match ImageRegistryProvider image ref with
    | oci.ProviderAWS => ecr_Login (ecr mgr) ctx (AwsAutoLogin opts) image s
    | oci.ProviderGCP => gcr_Login (gcr mgr) ctx (GcpAutoLogin opts) image ref s
    | oci.ProviderAzure => acr_Login (acr mgr) ctx (AzureAutoLogin opts) image ref s
    | oci.ProviderGeneric => Returned (None, None) s
    end.
Proof.
  intros Hl. unfold Login.
  destruct (ImageRegistryProvider image ref); unfold bind;
    rewrite ?(load_live _ _ _ Hl); reflexivity.
Qed.

Lemma invoke_Returned k callee s r s' :
  invoke k callee s = Returned r s' ->
  exists w, callee (world s) = Some (r, w) /\
            s' = mkState (heap s) w (calls s ++ [k]).
Proof.
  unfold invoke. destruct (callee (world s)) as [[r0 w]|]; [|discriminate].
  intros [= <- <-]. exists w. split; reflexivity.
Qed.

(** A login that returns leaves the heap alone and makes at most one call,
    to a client of the manager. *)
Lemma Login_frame l mgr ctx image ref opts s r s' :
  heap s !! l = Some (ManagerObj mgr) ->
  Login (Some l) ctx image ref opts s = Returned r s' ->
  heap s' = heap s /\
  exists ks, calls s' = calls s ++ ks /\ Forall (served_by mgr) ks.
Proof.
  intros Hl. rewrite (Login_live _ _ _ _ _ _ _ Hl).
  destruct (ImageRegistryProvider image ref).
  - intros [= <- <-]. split; [reflexivity|]. exists []. rewrite app_nil_r. auto.
  - intros (w & _ & ->)%invoke_Returned. split; [reflexivity|].
    eexists. split; [reflexivity|]. repeat constructor.
  - intros (w & _ & ->)%invoke_Returned. split; [reflexivity|].
    eexists. split; [reflexivity|]. repeat constructor.
  - intros (w & _ & ->)%invoke_Returned. split; [reflexivity|].
    eexists. split; [reflexivity|]. repeat constructor.
Qed.

Lemma Logins_frame l mgr reqs : forall s rs s',
  heap s !! l = Some (ManagerObj mgr) ->
  Logins (Some l) reqs s = Returned rs s' ->
  heap s' = heap s /\
  exists ks, calls s' = calls s ++ ks /\ Forall (served_by mgr) ks.
Proof.
  induction reqs as [|q reqs IH]; intros s rs s' Hl; simpl.
  - intros [= <- <-]. split; [reflexivity|]. exists []. rewrite app_nil_r. auto.
  - unfold bind at 1.
    destruct (Login (Some l) (req_ctx q) (req_image q) (req_ref q) (req_opts q) s)
      as [r s1|] eqn:Hfirst; [|discriminate].
    destruct (Login_frame _ _ _ _ _ _ _ _ _ Hl Hfirst) as (Hheap1 & ks1 & Hcalls1 & Hks1).
    unfold bind at 1.
    destruct (Logins (Some l) reqs s1) as [rs1 s2|] eqn:Hrest; [|discriminate].
    assert (Hl1 : heap s1 !! l = Some (ManagerObj mgr)) by (rewrite Hheap1; exact Hl).
    destruct (IH _ _ _ Hl1 Hrest) as (Hheap2 & ks2 & Hcalls2 & Hks2).
    intros [= <- <-]. split; [congruence|].
    exists (ks1 ++ ks2). split.
    + rewrite Hcalls2, Hcalls1, app_assoc. reflexivity.
    + apply Forall_app. split; assumption.
Qed.

(** C3: a login classified Generic returns no authenticator and no error
    and leaves the state as it was, so that no client call is made; this
    holds for every manager pointer (nil included), every heap and every
    value of the options. *)
Theorem Login_generic m ctx image ref opts s :
  ImageRegistryProvider image ref = oci.ProviderGeneric ->
  Login m ctx image ref opts s = Returned (None, None) s.
Proof.
  intros Hgeneric. unfold Login. rewrite Hgeneric. reflexivity.
Qed.

(** C4: a login classified AWS on a manager is the one call of the
    manager's ECR client with (ctx, opts.AwsAutoLogin, image): what the
    client returns is returned as it is, a panic of the client is not
    caught, and the only call recorded is that ECR call. *)
Theorem Login_aws l mgr ctx image ref opts s :
  ImageRegistryProvider image ref = oci.ProviderAWS ->
  heap s !! l = Some (ManagerObj mgr) ->
  Login (Some l) ctx image ref opts s =
    match aws_Client_Login (ecr mgr) ctx (AwsAutoLogin opts) image (world s) with
    | Some (r, w) =>
        Returned r (mkState (heap s) w
                      (calls s ++ [ECRLogin (ecr mgr) ctx (AwsAutoLogin opts) image]))
    | None => Panicked
    end.
Proof.
  intros Haws Hl. rewrite (Login_live _ _ _ _ _ _ _ Hl), Haws. reflexivity.
Qed.

(** C5: on a manager, a login classified GCP is the one call of the
    manager's GCR client with (ctx, opts.GcpAutoLogin, image, ref), and a
    login classified Azure is the one call of its ACR client with
    (ctx, opts.AzureAutoLogin, image, ref); in both cases the client's
    result is returned as it is and no other call is recorded. *)
Theorem Login_gcp_azure l mgr ctx image ref opts s :
  heap s !! l = Some (ManagerObj mgr) ->
  (ImageRegistryProvider image ref = oci.ProviderGCP ->
   Login (Some l) ctx image ref opts s =
     match gcp_Client_Login (gcr mgr) ctx (GcpAutoLogin opts) image ref (world s) with
     | Some (r, w) =>
         Returned r (mkState (heap s) w
                       (calls s ++ [GCRLogin (gcr mgr) ctx (GcpAutoLogin opts) image ref]))
     | None => Panicked
     end) /\
  (ImageRegistryProvider image ref = oci.ProviderAzure ->
   Login (Some l) ctx image ref opts s =
     match azure_Client_Login (acr mgr) ctx (AzureAutoLogin opts) image ref (world s) with
     | Some (r, w) =>
         Returned r (mkState (heap s) w
                       (calls s ++ [ACRLogin (acr mgr) ctx (AzureAutoLogin opts) image ref]))
     | None => Panicked
     end).
Proof.
  intros Hl. rewrite (Login_live _ _ _ _ _ _ _ Hl).
  split; intros ->; reflexivity.
Qed.

(** ** The manager: overrides and construction *)

Lemma store_live l mgr mgr' s :
  heap s !! l = Some (ManagerObj mgr) ->
  store (Some l) mgr' s =
    Returned tt (mkState (<[l := ManagerObj mgr']> (heap s)) (world s) (calls s)).
Proof. intros Hl. unfold store. rewrite Hl. reflexivity. Qed.

Lemma alloc_fresh o s :
  exists l : loc,
    heap s !! l = None /\
    alloc o s = Returned (Some l) (mkState (<[l := o]> (heap s)) (world s) (calls s)).
Proof.
  exists (fresh (dom (heap s))). split; [|reflexivity].
  apply not_elem_of_dom, is_fresh.
Qed.

(** C8: on a manager, each setter puts the given client (nil or not) in its
    own field, keeps the other two fields and every other object, and
    returns the pointer it was called on.  After any series of logins on the
    overridden manager the heap is still as the setter left it, every call
    made went to a client the overridden manager holds (so the replaced
    client got none), and the next login goes to those clients again. *)
Theorem With_Client_override l mgr c s :
  heap s !! l = Some (ManagerObj mgr) ->
  let installed (mgr' : Manager) : State :=
    mkState (<[l := ManagerObj mgr']> (heap s)) (world s) (calls s) in
  let with_ecr := mkManager c (gcr mgr) (acr mgr) in
  let with_gcr := mkManager (ecr mgr) c (acr mgr) in
  let with_acr := mkManager (ecr mgr) (gcr mgr) c in
  (WithECRClient (Some l) c s = Returned (Some l) (installed with_ecr) /\
   WithGCRClient (Some l) c s = Returned (Some l) (installed with_gcr) /\
   WithACRClient (Some l) c s = Returned (Some l) (installed with_acr)) /\
  forall mgr' : Manager, mgr' ∈ [with_ecr; with_gcr; with_acr] ->
  forall reqs rs s', Logins (Some l) reqs (installed mgr') = Returned rs s' ->
    heap s' = <[l := ManagerObj mgr']> (heap s) /\
    (exists ks, calls s' = calls s ++ ks /\ Forall (served_by mgr') ks) /\
    forall ctx image ref opts,
      Login (Some l) ctx image ref opts s' =
        match ImageRegistryProvider image ref with
        | oci.ProviderAWS => ecr_Login (ecr mgr') ctx (AwsAutoLogin opts) image s'
        | oci.ProviderGCP => gcr_Login (gcr mgr') ctx (GcpAutoLogin opts) image ref s'
        | oci.ProviderAzure => acr_Login (acr mgr') ctx (AzureAutoLogin opts) image ref s'
        | oci.ProviderGeneric => Returned (None, None) s'
        end.
Proof.
  intros Hl installed with_ecr with_gcr with_acr. split.
  - unfold WithECRClient, WithGCRClient, WithACRClient, bind.
    rewrite (load_live _ _ _ Hl), !(store_live _ _ _ _ Hl).
    repeat split; reflexivity.
  - intros mgr' _ reqs rs s' Hrun.
    assert (Hl' : heap (installed mgr') !! l = Some (ManagerObj mgr'))
      by apply lookup_insert_eq.
    destruct (Logins_frame _ _ _ _ _ _ Hl' Hrun) as (Hheap & ks & Hcalls & Hks).
    split; [exact Hheap|]. split; [exists ks; split; assumption|].
    intros ctx image ref opts. apply Login_live.
    rewrite Hheap. exact Hl'.
Qed.

(** C10: [NewManager] returns a non-nil pointer to a new manager whose
    three handles are non-nil and point to three new client objects, one of
    each kind; nothing that was in the heap is touched, no client is
    called; and a login on that manager calls, for each classification,
    the non-nil client held for it (none for Generic). *)
Theorem NewManager_clients_non_nil s :
  exists (m e g a : loc) (s' : State),
    NewManager s = Returned (Some m) s' /\
    heap s' !! m = Some (ManagerObj (mkManager (Some e) (Some g) (Some a))) /\
    (heap s' !! e = Some aws_ClientObj /\
     heap s' !! g = Some gcp_ClientObj /\
     heap s' !! a = Some azure_ClientObj) /\
    (heap s !! m = None /\ heap s !! e = None /\
     heap s !! g = None /\ heap s !! a = None) /\
    (heap s ⊆ heap s' /\ world s' = world s /\ calls s' = calls s) /\
    forall ctx image ref opts,
      Login (Some m) ctx image ref opts s' =
        match ImageRegistryProvider image ref with
        | oci.ProviderAWS => ecr_Login (Some e) ctx (AwsAutoLogin opts) image s'
        | oci.ProviderGCP => gcr_Login (Some g) ctx (GcpAutoLogin opts) image ref s'
        | oci.ProviderAzure => acr_Login (Some a) ctx (AzureAutoLogin opts) image ref s'
        | oci.ProviderGeneric => Returned (None, None) s'
        end.
Proof.
  unfold NewManager, aws_NewClient, gcp_NewClient, azure_NewClient.
  destruct (alloc_fresh aws_ClientObj s) as (e & He & Halloc_e).
  set (s1 := mkState (<[e := aws_ClientObj]> (heap s)) (world s) (calls s)) in *.
  destruct (alloc_fresh gcp_ClientObj s1) as (g & Hg & Halloc_g).
  set (s2 := mkState (<[g := gcp_ClientObj]> (heap s1)) (world s1) (calls s1)) in *.
  destruct (alloc_fresh azure_ClientObj s2) as (a & Ha & Halloc_a).
  set (s3 := mkState (<[a := azure_ClientObj]> (heap s2)) (world s2) (calls s2)) in *.
  destruct (alloc_fresh (ManagerObj (mkManager (Some e) (Some g) (Some a))) s3)
    as (m & Hm & Halloc_m).
  set (s4 := mkState (<[m := ManagerObj (mkManager (Some e) (Some g) (Some a))]> (heap s3))
               (world s3) (calls s3)) in *.
  exists m, e, g, a, s4. split.
  { unfold bind. rewrite Halloc_e, Halloc_g, Halloc_a. exact Halloc_m. }
  assert (Hlive : heap s4 !! m = Some (ManagerObj (mkManager (Some e) (Some g) (Some a))))
    by apply lookup_insert_eq.
  simpl in Hg, Ha, Hm.
  apply lookup_insert_None in Hg as [Hg Heg].
  apply lookup_insert_None in Ha as [Ha Hga].
  apply lookup_insert_None in Ha as [Ha Hea].
  apply lookup_insert_None in Hm as [Hm Ham].
  apply lookup_insert_None in Hm as [Hm Hgm].
  apply lookup_insert_None in Hm as [Hm Hem].
  split; [exact Hlive|]. split; [|split; [auto|split]].
  - simpl. repeat split; simplify_map_eq; reflexivity.
  - split; [|split; reflexivity]. simpl.
    do 4 (etrans; [|apply insert_subseteq; rewrite ?lookup_insert_ne by done; done]).
    reflexivity.
  - intros ctx image ref opts.
    exact (Login_live m (mkManager (Some e) (Some g) (Some a)) ctx image ref opts s4 Hlive).
Qed.

(** ** Further properties of the classifier and of [Login] *)

(** X1: Each cloud tag is returned only on its own branch: AWS exactly when
    [aws.ParseImage] accepts the image; GCP exactly when it does not and the
    GCP host test passes; Azure exactly when neither of those holds and the
    Azure host test passes. *)
Theorem ImageRegistryProvider_characterised image ref :
  (ImageRegistryProvider image ref = oci.ProviderAWS <->
     (aws_ParseImage image).2 = true) /\
  (ImageRegistryProvider image ref = oci.ProviderGCP <->
     (aws_ParseImage image).2 = false /\
     gcp_ValidHost (name.RegistryStr (name.Context ref)) = true) /\
  (ImageRegistryProvider image ref = oci.ProviderAzure <->
     (aws_ParseImage image).2 = false /\
     gcp_ValidHost (name.RegistryStr (name.Context ref)) = false /\
     azure_ValidHost (name.RegistryStr (name.Context ref)) = true).
Proof.
  rewrite ImageRegistryProvider_table.
  destruct ((aws_ParseImage image).2),
    (gcp_ValidHost (name.RegistryStr (name.Context ref))),
    (azure_ValidHost (name.RegistryStr (name.Context ref))); simpl;
    repeat split; try reflexivity; try discriminate;
    intros H; decompose [and] H; discriminate.
Qed.

(** X2: For an image that [aws.ParseImage] accepts, [Login] does not look at
    the reference at all: with any two references the outcome (result,
    state and recorded call, or panic) is the same, on every manager
    pointer. *)
Theorem Login_ecr_ignores_reference m ctx image ref1 ref2 opts s :
  (aws_ParseImage image).2 = true ->
  Login m ctx image ref1 opts s = Login m ctx image ref2 opts s.
Proof.
  intros Hok. unfold Login.
  rewrite !ImageRegistryProvider_table, Hok. reflexivity.
Qed.

(** X3: [Login] reads a single field of the options, the one of the provider
    the image is classified as, and none for Generic: two option records
    that agree on that field give the same outcome. *)
Theorem Login_reads_one_flag m ctx image ref opts1 opts2 s :
  match ImageRegistryProvider image ref with
  | oci.ProviderAWS => AwsAutoLogin opts1 = AwsAutoLogin opts2
  | oci.ProviderGCP => GcpAutoLogin opts1 = GcpAutoLogin opts2
  | oci.ProviderAzure => AzureAutoLogin opts1 = AzureAutoLogin opts2
  | oci.ProviderGeneric => True
  end ->
  Login m ctx image ref opts1 s = Login m ctx image ref opts2 s.
Proof.
  unfold Login.
  destruct (ImageRegistryProvider image ref); intros Hflag;
    rewrite ?Hflag; reflexivity.
Qed.

(** X4: [Login] reads a single handle of the manager, the one of the provider
    the image is classified as, and nothing else of the heap: on any other
    heap in which the manager holds the same handle for that provider, the
    login has the same result, the same effect on the outside world and the
    same recorded call, and it leaves that other heap as it is. *)
Theorem Login_reads_one_handle l mgr mgr' (h' : gmap loc Object) ctx image ref opts s :
  heap s !! l = Some (ManagerObj mgr) ->
  h' !! l = Some (ManagerObj mgr') ->
  match ImageRegistryProvider image ref with
  | oci.ProviderAWS => ecr mgr = ecr mgr'
  | oci.ProviderGCP => gcr mgr = gcr mgr'
  | oci.ProviderAzure => acr mgr = acr mgr'
  | oci.ProviderGeneric => True
  end ->
  Login (Some l) ctx image ref opts (mkState h' (world s) (calls s)) =
    match Login (Some l) ctx image ref opts s with
    | Returned r s1 => Returned r (mkState h' (world s1) (calls s1))
    | Panicked => Panicked
    end.
Proof.
  intros Hl Hl'.
  rewrite (Login_live l mgr' ctx image ref opts (mkState h' (world s) (calls s)) Hl').
  rewrite (Login_live l mgr ctx image ref opts s Hl).
  destruct (ImageRegistryProvider image ref); intros Hsame;
    rewrite <- ?Hsame; unfold ecr_Login, gcr_Login, acr_Login, invoke; simpl.
  - reflexivity.
  - destruct (aws_Client_Login _ _ _ _ _) as [[r w]|]; reflexivity.
  - destruct (gcp_Client_Login _ _ _ _ _ _) as [[r w]|]; reflexivity.
  - destruct (azure_Client_Login _ _ _ _ _ _) as [[r w]|]; reflexivity.
Qed.

(** X5: On a nil manager [Login] still answers (nil, nil) for a Generic image,
    leaving the state as it was, since that branch never touches the
    receiver, and panics for every other image, whatever the clients would
    answer; the three setters panic. *)
Theorem nil_Manager_behaviour ctx image ref opts c s :
  Login None ctx image ref opts s =
    (if decide (ImageRegistryProvider image ref = oci.ProviderGeneric)
     then Returned (None, None) s else Panicked) /\
  WithECRClient None c s = Panicked /\
  WithGCRClient None c s = Panicked /\
  WithACRClient None c s = Panicked.
Proof.
  split; [|repeat split; reflexivity].
  unfold Login. destruct (ImageRegistryProvider image ref); reflexivity.
Qed.

(** A login that returns records one call, to the provider of the image,
    or none when the image is Generic. *)
Lemma Login_call_provider l mgr ctx image ref opts s r s' :
  heap s !! l = Some (ManagerObj mgr) ->
  Login (Some l) ctx image ref opts s = Returned r s' ->
  heap s' = heap s /\
  exists ks, calls s' = calls s ++ ks /\
    Call_provider <$> ks =
      filter (λ p, p ≠ oci.ProviderGeneric) [ImageRegistryProvider image ref].
Proof.
  intros Hl. rewrite (Login_live _ _ _ _ _ _ _ Hl).
  destruct (ImageRegistryProvider image ref).
  - intros [= <- <-]. split; [reflexivity|]. exists []. rewrite app_nil_r.
    split; reflexivity.
  - intros (w & _ & ->)%invoke_Returned. split; [reflexivity|].
    eexists. split; reflexivity.
  - intros (w & _ & ->)%invoke_Returned. split; [reflexivity|].
    eexists. split; reflexivity.
  - intros (w & _ & ->)%invoke_Returned. split; [reflexivity|].
    eexists. split; reflexivity.
Qed.

(** X6: A series of logins on a manager that runs to its end leaves the heap
    as it was, gives one result per request, and adds to the record of
    client calls exactly one call per request that is not Generic, in the
    order of the requests and each to the provider its image is classified
    as. *)
Theorem Logins_call_record l mgr reqs : forall s rs s',
  heap s !! l = Some (ManagerObj mgr) ->
  Logins (Some l) reqs s = Returned rs s' ->
  heap s' = heap s /\
  length rs = length reqs /\
  exists ks, calls s' = calls s ++ ks /\
    Call_provider <$> ks =
      filter (λ p, p ≠ oci.ProviderGeneric)
        ((λ q, ImageRegistryProvider (req_image q) (req_ref q)) <$> reqs).
Proof.
  induction reqs as [|q reqs IH]; intros s rs s' Hl; simpl.
  - intros [= <- <-]. split; [reflexivity|]. split; [reflexivity|].
    exists []. rewrite app_nil_r. split; reflexivity.
  - unfold bind at 1.
    destruct (Login (Some l) (req_ctx q) (req_image q) (req_ref q) (req_opts q) s)
      as [r s1|] eqn:Hfirst; [|discriminate].
    destruct (Login_call_provider _ _ _ _ _ _ _ _ _ Hl Hfirst)
      as (Hheap1 & ks1 & Hcalls1 & Hks1).
    unfold bind at 1.
    destruct (Logins (Some l) reqs s1) as [rs1 s2|] eqn:Hrest; [|discriminate].
    assert (Hl1 : heap s1 !! l = Some (ManagerObj mgr)) by (rewrite Hheap1; exact Hl).
    destruct (IH _ _ _ Hl1 Hrest) as (Hheap2 & Hlen & ks2 & Hcalls2 & Hks2).
    intros [= <- <-]. split; [congruence|]. split; [simpl; congruence|].
    exists (ks1 ++ ks2). split.
    + rewrite Hcalls2, Hcalls1, app_assoc. reflexivity.
    + rewrite fmap_app, Hks1, Hks2.
      change (?x :: ?t) with ([x] ++ t) at 2.
      rewrite filter_app. reflexivity.
Qed.

(** ** Further properties of the setters *)

Lemma WithECRClient_live l mgr c s :
  heap s !! l = Some (ManagerObj mgr) ->
  WithECRClient (Some l) c s =
    Returned (Some l)
      (mkState (<[l := ManagerObj (mkManager c (gcr mgr) (acr mgr))]> (heap s))
         (world s) (calls s)).
Proof.
  intros Hl. unfold WithECRClient, bind.
  rewrite (load_live _ _ _ Hl), (store_live _ _ _ _ Hl). reflexivity.
Qed.

Lemma WithGCRClient_live l mgr c s :
  heap s !! l = Some (ManagerObj mgr) ->
  WithGCRClient (Some l) c s =
    Returned (Some l)
      (mkState (<[l := ManagerObj (mkManager (ecr mgr) c (acr mgr))]> (heap s))
         (world s) (calls s)).
Proof.
  intros Hl. unfold WithGCRClient, bind.
  rewrite (load_live _ _ _ Hl), (store_live _ _ _ _ Hl). reflexivity.
Qed.

Lemma WithACRClient_live l mgr c s :
  heap s !! l = Some (ManagerObj mgr) ->
  WithACRClient (Some l) c s =
    Returned (Some l)
      (mkState (<[l := ManagerObj (mkManager (ecr mgr) (gcr mgr) c)]> (heap s))
         (world s) (calls s)).
Proof.
  intros Hl. unfold WithACRClient, bind.
  rewrite (load_live _ _ _ Hl), (store_live _ _ _ _ Hl). reflexivity.
Qed.

(** Runs a chain of setters on a manager known to be live. *)
Ltac run_setters :=
  unfold bind;
  repeat (first
    [ erewrite WithECRClient_live by (simpl; first [eassumption | apply lookup_insert_eq])
    | erewrite WithGCRClient_live by (simpl; first [eassumption | apply lookup_insert_eq])
    | erewrite WithACRClient_live by (simpl; first [eassumption | apply lookup_insert_eq]) ]);
  simpl; rewrite ?insert_insert_eq.

(** X7: Overriding the same client twice in a chain is the same as overriding
    it once with the second client: the last override wins. *)
Theorem With_Client_last_wins l mgr c1 c2 s :
  heap s !! l = Some (ManagerObj mgr) ->
  (m1 <- WithECRClient (Some l) c1 ;; WithECRClient m1 c2) s
    = WithECRClient (Some l) c2 s /\
  (m1 <- WithGCRClient (Some l) c1 ;; WithGCRClient m1 c2) s
    = WithGCRClient (Some l) c2 s /\
  (m1 <- WithACRClient (Some l) c1 ;; WithACRClient m1 c2) s
    = WithACRClient (Some l) c2 s.
Proof.
  intros Hl. repeat split; run_setters; reflexivity.
Qed.

(** X8: Overriding a client and then putting back the handle the manager held
    restores the state exactly: the heap, the outside world and the record
    of calls are as before the first override. *)
Theorem With_Client_restore l mgr c s :
  heap s !! l = Some (ManagerObj mgr) ->
  (m1 <- WithECRClient (Some l) c ;; WithECRClient m1 (ecr mgr)) s
    = Returned (Some l) s /\
  (m1 <- WithGCRClient (Some l) c ;; WithGCRClient m1 (gcr mgr)) s
    = Returned (Some l) s /\
  (m1 <- WithACRClient (Some l) c ;; WithACRClient m1 (acr mgr)) s
    = Returned (Some l) s.
Proof.
  intros Hl.
  assert (Hid : mkState (<[l := ManagerObj mgr]> (heap s)) (world s) (calls s) = s).
  { rewrite (insert_id _ _ _ Hl). destruct s; reflexivity. }
  destruct mgr as [e g a]; simpl in *.
  repeat split; run_setters; rewrite Hid; reflexivity.
Qed.

(** X9: A chain of the three setters leaves the manager holding exactly the
    three clients given, whatever it held before and in whatever order the
    setters are chained; every chain returns the pointer it started from. *)
Theorem With_Client_chain_order l mgr e g a s :
  heap s !! l = Some (ManagerObj mgr) ->
  let final :=
    Returned (Some l)
      (mkState (<[l := ManagerObj (mkManager e g a)]> (heap s)) (world s) (calls s)) in
  (m1 <- WithECRClient (Some l) e ;; m2 <- WithGCRClient m1 g ;; WithACRClient m2 a) s
    = final /\
  (m1 <- WithECRClient (Some l) e ;; m2 <- WithACRClient m1 a ;; WithGCRClient m2 g) s
    = final /\
  (m1 <- WithGCRClient (Some l) g ;; m2 <- WithECRClient m1 e ;; WithACRClient m2 a) s
    = final /\
  (m1 <- WithGCRClient (Some l) g ;; m2 <- WithACRClient m1 a ;; WithECRClient m2 e) s
    = final /\
  (m1 <- WithACRClient (Some l) a ;; m2 <- WithECRClient m1 e ;; WithGCRClient m2 g) s
    = final /\
  (m1 <- WithACRClient (Some l) a ;; m2 <- WithGCRClient m1 g ;; WithECRClient m2 e) s
    = final.
Proof.
  intros Hl final. unfold final. repeat split; run_setters; reflexivity.
Qed.

(** X10: Managers are separate objects: an override on one manager leaves every
    other manager as it was, and a login on another manager still goes to
    the clients that manager holds. *)
Theorem With_Client_other_manager l l' mgr mgr' c s :
  l ≠ l' ->
  heap s !! l = Some (ManagerObj mgr) ->
  heap s !! l' = Some (ManagerObj mgr') ->
  forall setter, setter ∈ [WithECRClient; WithGCRClient; WithACRClient] ->
  exists s1,
    setter (Some l) c s = Returned (Some l) s1 /\
    heap s1 !! l' = Some (ManagerObj mgr') /\
    forall ctx image ref opts,
      Login (Some l') ctx image ref opts s1 =
        match ImageRegistryProvider image ref with
        | oci.ProviderAWS => ecr_Login (ecr mgr') ctx (AwsAutoLogin opts) image s1
        | oci.ProviderGCP => gcr_Login (gcr mgr') ctx (GcpAutoLogin opts) image ref s1
        | oci.ProviderAzure => acr_Login (acr mgr') ctx (AzureAutoLogin opts) image ref s1
        | oci.ProviderGeneric => Returned (None, None) s1
        end.
Proof.
  intros Hne Hl Hl' setter Hsetter.
  assert (Hcases : setter = WithECRClient \/ setter = WithGCRClient \/
                   setter = WithACRClient).
  { rewrite !elem_of_cons in Hsetter.
    destruct Hsetter as [H | [H | [H | H]]]; auto. inversion H. }
  destruct Hcases as [-> | [-> | ->]].
  - eexists. split; [apply (WithECRClient_live _ _ _ _ Hl)|].
    assert (Hl1 : forall mgr1, <[l := ManagerObj mgr1]> (heap s) !! l' = Some (ManagerObj mgr'))
      by (intros mgr1; rewrite lookup_insert_ne by exact Hne; exact Hl').
    split; [apply Hl1|]. intros ctx image ref opts. apply Login_live, Hl1.
  - eexists. split; [apply (WithGCRClient_live _ _ _ _ Hl)|].
    assert (Hl1 : forall mgr1, <[l := ManagerObj mgr1]> (heap s) !! l' = Some (ManagerObj mgr'))
      by (intros mgr1; rewrite lookup_insert_ne by exact Hne; exact Hl').
    split; [apply Hl1|]. intros ctx image ref opts. apply Login_live, Hl1.
  - eexists. split; [apply (WithACRClient_live _ _ _ _ Hl)|].
    assert (Hl1 : forall mgr1, <[l := ManagerObj mgr1]> (heap s) !! l' = Some (ManagerObj mgr'))
      by (intros mgr1; rewrite lookup_insert_ne by exact Hne; exact Hl').
    split; [apply Hl1|]. intros ctx image ref opts. apply Login_live, Hl1.
Qed.

End Login.

Arguments mkState {context_Context World} heap world calls.
Arguments Returned {context_Context World A} a s.
Arguments Panicked {context_Context World A}.
Arguments ECRLogin {context_Context} c ctx autoLogin image.
Arguments GCRLogin {context_Context} c ctx autoLogin image ref.
Arguments ACRLogin {context_Context} c ctx autoLogin image ref.
Arguments mkRequest {context_Context} req_ctx req_image req_ref req_opts.
Arguments bind {context_Context World A B} c k s.

(** ** The embedding run on the doubles *)

Local Abbreviation classify :=
  (ImageRegistryProvider doubles.ParseImage doubles.gcp_ValidHost doubles.azure_ValidHost).

Local Abbreviation login0 :=
  (Login doubles.ParseImage doubles.gcp_ValidHost doubles.azure_ValidHost
     unit string string nat
     doubles.aws_Client_Login doubles.gcp_Client_Login doubles.azure_Client_Login).

Local Abbreviation logins0 :=
  (Logins doubles.ParseImage doubles.gcp_ValidHost doubles.azure_ValidHost
     unit string string nat
     doubles.aws_Client_Login doubles.gcp_Client_Login doubles.azure_Client_Login).

(** The example scenarios of the classifier. *)
Example classify_scenarios :
  classify doubles.ecr_image (doubles.tagged doubles.ecr_host "my-repo" "v1")
    = oci.ProviderAWS /\
  classify doubles.gcr_image (doubles.tagged "gcr.io" "my-project/my-repo" "latest")
    = oci.ProviderGCP /\
  classify doubles.acr_image (doubles.tagged "myregistry.azurecr.io" "my-repo" "latest")
    = oci.ProviderAzure /\
  classify doubles.hub_image (doubles.tagged "docker.io" "library/nginx" "latest")
    = oci.ProviderGeneric.
Proof. repeat split; reflexivity. Qed.

(** A new manager on an empty heap: clients at 1, 2, 3, the manager at 4. *)
Example NewManager_on_empty_heap :
  NewManager unit nat (mkState ∅ 0 []) =
    Returned (Some 4%positive)
      (mkState
         (<[4%positive := ManagerObj (mkManager (Some 1%positive) (Some 2%positive)
                                         (Some 3%positive))]>
            (<[3%positive := azure_ClientObj]>
               (<[2%positive := gcp_ClientObj]>
                  (<[1%positive := aws_ClientObj]> ∅)))) 0 []).
Proof. vm_compute. reflexivity. Qed.

(** A login on a nil manager panics as soon as a client is needed. *)
Example Login_on_nil_manager :
  login0 None tt doubles.gcr_image
    (doubles.tagged "gcr.io" "my-project/my-repo" "latest") doubles.all_on
    (mkState doubles.heap0 0 []) = Panicked.
Proof. reflexivity. Qed.

(** The setters on a nil manager panic. *)
Example WithECRClient_on_nil_manager :
  WithECRClient unit nat None (Some 5%positive) (mkState doubles.heap0 0 []) = Panicked.
Proof. reflexivity. Qed.

(** Counterexample to C2 as stated: on a Docker Hub image and the nil
    reference the classifier panics at [ref.Context()], so that no tag is
    returned for this (image, reference) pair. *)
Lemma ImageRegistryProvider_nil_reference :
  ImageRegistryProvider_nilable doubles.ParseImage doubles.gcp_ValidHost
    doubles.azure_ValidHost doubles.hub_image None = None /\
  ~ (exists p : oci.Provider,
       ImageRegistryProvider_nilable doubles.ParseImage doubles.gcp_ValidHost
         doubles.azure_ValidHost doubles.hub_image None = Some p).
Proof.
  split; [reflexivity|]. intros [p Hp]. discriminate Hp.
Qed.

(** Witness of C1: an ECR image with a reference into gcr.io is AWS. *)
Lemma ImageRegistryProvider_aws_first_witness :
  (doubles.ParseImage doubles.ecr_image).2 = true /\
  classify doubles.ecr_image (doubles.tagged "gcr.io" "my-project/my-repo" "v1")
    = oci.ProviderAWS.
Proof.
  split; [reflexivity|].
  apply ImageRegistryProvider_aws_first. reflexivity.
Defined.

(** Witness of C6. *)
Lemma ImageRegistryProvider_gcp_witness :
  (doubles.ParseImage doubles.gcr_image).2 = false /\
  doubles.gcp_ValidHost "gcr.io" = true /\
  classify doubles.gcr_image (doubles.tagged "gcr.io" "my-project/my-repo" "latest")
    = oci.ProviderGCP.
Proof.
  split; [reflexivity|]. split; [reflexivity|].
  apply ImageRegistryProvider_gcp; reflexivity.
Defined.

(** Witness of C7. *)
Lemma ImageRegistryProvider_azure_witness :
  (doubles.ParseImage doubles.acr_image).2 = false /\
  doubles.gcp_ValidHost "myregistry.azurecr.io" = false /\
  doubles.azure_ValidHost "myregistry.azurecr.io" = true /\
  classify doubles.acr_image (doubles.tagged "myregistry.azurecr.io" "my-repo" "latest")
    = oci.ProviderAzure.
Proof.
  split; [reflexivity|]. split; [reflexivity|]. split; [reflexivity|].
  apply ImageRegistryProvider_azure; reflexivity.
Defined.

(** Witness of C9: a tag and a digest in different repositories of one
    registry. *)
Lemma ImageRegistryProvider_host_only_witness :
  name.RegistryStr (name.Context (doubles.tagged "gcr.io" "my-project/my-repo" "v1")) =
    name.RegistryStr (name.Context (doubles.digested "gcr.io" "other/repo" "sha256:0f")) /\
  classify doubles.gcr_image (doubles.tagged "gcr.io" "my-project/my-repo" "v1") =
    classify doubles.gcr_image (doubles.digested "gcr.io" "other/repo" "sha256:0f").
Proof.
  split; [reflexivity|].
  apply ImageRegistryProvider_host_only. reflexivity.
Defined.

(** Witness of C3: a Docker Hub image, on a nil manager and an empty heap. *)
Lemma Login_generic_witness :
  classify doubles.hub_image (doubles.tagged "docker.io" "library/nginx" "latest")
    = oci.ProviderGeneric /\
  login0 None tt doubles.hub_image
    (doubles.tagged "docker.io" "library/nginx" "latest") doubles.all_on
    (mkState ∅ 0 []) = Returned (None, None) (mkState ∅ 0 []).
Proof.
  split; [reflexivity|].
  apply Login_generic. reflexivity.
Defined.

(** Witness of C4: the ECR client at address 2 serves the request. *)
Lemma Login_aws_witness :
  classify doubles.ecr_image (doubles.tagged doubles.ecr_host "my-repo" "v1")
    = oci.ProviderAWS /\
  doubles.heap0 !! 1%positive = Some (ManagerObj doubles.manager0) /\
  login0 (Some 1%positive) tt doubles.ecr_image
    (doubles.tagged doubles.ecr_host "my-repo" "v1") doubles.all_on
    (mkState doubles.heap0 0 []) =
  Returned
    (Some "ecr:123456789012.dkr.ecr.us-west-2.amazonaws.com/my-repo:v1", None)
    (mkState doubles.heap0 1
       [ECRLogin (Some 2%positive) tt true doubles.ecr_image]).
Proof.
  split; [reflexivity|]. split; [reflexivity|].
  exact (Login_aws doubles.ParseImage doubles.gcp_ValidHost doubles.azure_ValidHost
           unit string string nat
           doubles.aws_Client_Login doubles.gcp_Client_Login doubles.azure_Client_Login
           1%positive doubles.manager0 tt doubles.ecr_image
           (doubles.tagged doubles.ecr_host "my-repo" "v1") doubles.all_on
           (mkState doubles.heap0 0 []) eq_refl eq_refl).
Defined.

(** Witness of C5: the GCR client at 3 answers with a token, the ACR client
    at 4, with auto-login off, answers with an error; both come back as
    they are. *)
Lemma Login_gcp_azure_witness :
  doubles.heap0 !! 1%positive = Some (ManagerObj doubles.manager0) /\
  (classify doubles.gcr_image (doubles.tagged "gcr.io" "my-project/my-repo" "latest")
     = oci.ProviderGCP /\
   login0 (Some 1%positive) tt doubles.gcr_image
     (doubles.tagged "gcr.io" "my-project/my-repo" "latest") doubles.all_on
     (mkState doubles.heap0 0 []) =
   Returned (Some "gcr:gcr.io/my-project/my-repo", None)
     (mkState doubles.heap0 1
        [GCRLogin (Some 3%positive) tt true doubles.gcr_image
           (doubles.tagged "gcr.io" "my-project/my-repo" "latest")])) /\
  (classify doubles.acr_image (doubles.tagged "myregistry.azurecr.io" "my-repo" "latest")
     = oci.ProviderAzure /\
   login0 (Some 1%positive) tt doubles.acr_image
     (doubles.tagged "myregistry.azurecr.io" "my-repo" "latest") doubles.all_off
     (mkState doubles.heap0 0 []) =
   Returned (None, Some "acr: unconfigured provider")
     (mkState doubles.heap0 1
        [ACRLogin (Some 4%positive) tt false doubles.acr_image
           (doubles.tagged "myregistry.azurecr.io" "my-repo" "latest")])).
Proof.
  split; [reflexivity|]. split; (split; [reflexivity|]).
  - exact (proj1 (Login_gcp_azure doubles.ParseImage doubles.gcp_ValidHost
             doubles.azure_ValidHost unit string string nat
             doubles.aws_Client_Login doubles.gcp_Client_Login doubles.azure_Client_Login
             1%positive doubles.manager0 tt doubles.gcr_image
             (doubles.tagged "gcr.io" "my-project/my-repo" "latest") doubles.all_on
             (mkState doubles.heap0 0 []) eq_refl) eq_refl).
  - exact (proj2 (Login_gcp_azure doubles.ParseImage doubles.gcp_ValidHost
             doubles.azure_ValidHost unit string string nat
             doubles.aws_Client_Login doubles.gcp_Client_Login doubles.azure_Client_Login
             1%positive doubles.manager0 tt doubles.acr_image
             (doubles.tagged "myregistry.azurecr.io" "my-repo" "latest") doubles.all_off
             (mkState doubles.heap0 0 []) eq_refl) eq_refl).
Defined.

(** Witness of C8: the spare ECR client at 5 replaces the one at 2; the
    next ECR login goes to 5, and after it the record shows no call to 2. *)
Lemma With_Client_override_witness :
  doubles.heap0 !! 1%positive = Some (ManagerObj doubles.manager0) /\
  WithECRClient unit nat (Some 1%positive) (Some 5%positive) (mkState doubles.heap0 0 []) =
    Returned (Some 1%positive)
      (mkState
         (<[1%positive := ManagerObj (mkManager (Some 5%positive) (Some 3%positive)
                                         (Some 4%positive))]> doubles.heap0) 0 []) /\
  logins0 (Some 1%positive)
    [mkRequest tt doubles.ecr_image (doubles.tagged doubles.ecr_host "my-repo" "v1")
       doubles.all_on;
     mkRequest tt doubles.gcr_image
       (doubles.tagged "gcr.io" "my-project/my-repo" "latest") doubles.all_on]
    (mkState
       (<[1%positive := ManagerObj (mkManager (Some 5%positive) (Some 3%positive)
                                       (Some 4%positive))]> doubles.heap0) 0 []) =
  Returned
    [(Some "ecr:123456789012.dkr.ecr.us-west-2.amazonaws.com/my-repo:v1", None);
     (Some "gcr:gcr.io/my-project/my-repo", None)]
    (mkState
       (<[1%positive := ManagerObj (mkManager (Some 5%positive) (Some 3%positive)
                                       (Some 4%positive))]> doubles.heap0) 2
       [ECRLogin (Some 5%positive) tt true doubles.ecr_image;
        GCRLogin (Some 3%positive) tt true doubles.gcr_image
          (doubles.tagged "gcr.io" "my-project/my-repo" "latest")]) /\
  Forall (served_by unit (mkManager (Some 5%positive) (Some 3%positive) (Some 4%positive)))
    [ECRLogin (Some 5%positive) tt true doubles.ecr_image;
     GCRLogin (Some 3%positive) tt true doubles.gcr_image
       (doubles.tagged "gcr.io" "my-project/my-repo" "latest")].
Proof.
  split; [reflexivity|].
  destruct (With_Client_override doubles.ParseImage doubles.gcp_ValidHost
              doubles.azure_ValidHost unit string string nat
              doubles.aws_Client_Login doubles.gcp_Client_Login doubles.azure_Client_Login
              1%positive doubles.manager0 (Some 5%positive)
              (mkState doubles.heap0 0 []) eq_refl) as [[Hecr _] Hafter].
  split; [exact Hecr|].
  assert (Hrun :
    logins0 (Some 1%positive)
      [mkRequest tt doubles.ecr_image (doubles.tagged doubles.ecr_host "my-repo" "v1")
         doubles.all_on;
       mkRequest tt doubles.gcr_image
         (doubles.tagged "gcr.io" "my-project/my-repo" "latest") doubles.all_on]
      (mkState
         (<[1%positive := ManagerObj (mkManager (Some 5%positive) (Some 3%positive)
                                         (Some 4%positive))]> doubles.heap0) 0 []) =
    Returned
      [(Some "ecr:123456789012.dkr.ecr.us-west-2.amazonaws.com/my-repo:v1", None);
       (Some "gcr:gcr.io/my-project/my-repo", None)]
      (mkState
         (<[1%positive := ManagerObj (mkManager (Some 5%positive) (Some 3%positive)
                                         (Some 4%positive))]> doubles.heap0) 2
         [ECRLogin (Some 5%positive) tt true doubles.ecr_image;
          GCRLogin (Some 3%positive) tt true doubles.gcr_image
            (doubles.tagged "gcr.io" "my-project/my-repo" "latest")]))
    by (vm_compute; reflexivity).
  split; [exact Hrun|].
  destruct (Hafter (mkManager (Some 5%positive) (Some 3%positive) (Some 4%positive))
              ltac:(left) _ _ _ Hrun) as (_ & (ks & Hks & Hserved) & _).
  simpl in Hks. rewrite <- Hks in Hserved. exact Hserved.
Defined.

(** ** The further properties run on the doubles *)

(** An ECR image logs in the same way with a tag in its own registry and
    with a digest in gcr.io. *)
Lemma Login_ecr_ignores_reference_witness :
  (doubles.ParseImage doubles.ecr_image).2 = true /\
  login0 (Some 1%positive) tt doubles.ecr_image
    (doubles.tagged doubles.ecr_host "my-repo" "v1") doubles.all_on
    (mkState doubles.heap0 0 []) =
  login0 (Some 1%positive) tt doubles.ecr_image
    (doubles.digested "gcr.io" "other/repo" "sha256:0f") doubles.all_on
    (mkState doubles.heap0 0 []).
Proof.
  split; [reflexivity|].
  apply Login_ecr_ignores_reference. reflexivity.
Defined.

(** An ECR login with every flag on and with only the AWS flag on. *)
Lemma Login_reads_one_flag_witness :
  classify doubles.ecr_image (doubles.tagged doubles.ecr_host "my-repo" "v1")
    = oci.ProviderAWS /\
  AwsAutoLogin doubles.all_on = AwsAutoLogin (mkProviderOptions true false false) /\
  login0 (Some 1%positive) tt doubles.ecr_image
    (doubles.tagged doubles.ecr_host "my-repo" "v1") doubles.all_on
    (mkState doubles.heap0 0 []) =
  login0 (Some 1%positive) tt doubles.ecr_image
    (doubles.tagged doubles.ecr_host "my-repo" "v1") (mkProviderOptions true false false)
    (mkState doubles.heap0 0 []).
Proof.
  split; [reflexivity|]. split; [reflexivity|].
  apply Login_reads_one_flag. reflexivity.
Defined.

(** A GCR login before and after the ECR client of the manager is replaced
    by the spare one at 5. *)
Lemma Login_reads_one_handle_witness :
  doubles.heap0 !! 1%positive = Some (ManagerObj doubles.manager0) /\
  <[1%positive := ManagerObj (mkManager (Some 5%positive) (Some 3%positive)
                                (Some 4%positive))]> doubles.heap0 !! 1%positive =
    Some (ManagerObj (mkManager (Some 5%positive) (Some 3%positive) (Some 4%positive))) /\
  gcr doubles.manager0 = gcr (mkManager (Some 5%positive) (Some 3%positive) (Some 4%positive)) /\
  login0 (Some 1%positive) tt doubles.gcr_image
    (doubles.tagged "gcr.io" "my-project/my-repo" "latest") doubles.all_on
    (mkState
       (<[1%positive := ManagerObj (mkManager (Some 5%positive) (Some 3%positive)
                                       (Some 4%positive))]> doubles.heap0) 0 []) =
  Returned (Some "gcr:gcr.io/my-project/my-repo", None)
    (mkState
       (<[1%positive := ManagerObj (mkManager (Some 5%positive) (Some 3%positive)
                                       (Some 4%positive))]> doubles.heap0) 1
       [GCRLogin (Some 3%positive) tt true doubles.gcr_image
          (doubles.tagged "gcr.io" "my-project/my-repo" "latest")]).
Proof.
  split; [reflexivity|]. split; [reflexivity|]. split; [reflexivity|].
  exact (Login_reads_one_handle doubles.ParseImage doubles.gcp_ValidHost
           doubles.azure_ValidHost unit string string nat
           doubles.aws_Client_Login doubles.gcp_Client_Login doubles.azure_Client_Login
           1%positive doubles.manager0
           (mkManager (Some 5%positive) (Some 3%positive) (Some 4%positive))
           (<[1%positive := ManagerObj (mkManager (Some 5%positive) (Some 3%positive)
                                           (Some 4%positive))]> doubles.heap0)
           tt doubles.gcr_image (doubles.tagged "gcr.io" "my-project/my-repo" "latest")
           doubles.all_on (mkState doubles.heap0 0 []) eq_refl eq_refl eq_refl).
Defined.

(** Three logins, for an ECR, a Docker Hub and an ACR image: two calls are
    recorded, to AWS and then to Azure. *)
Lemma Logins_call_record_witness :
  doubles.heap0 !! 1%positive = Some (ManagerObj doubles.manager0) /\
  logins0 (Some 1%positive)
    [mkRequest tt doubles.ecr_image (doubles.tagged doubles.ecr_host "my-repo" "v1")
       doubles.all_on;
     mkRequest tt doubles.hub_image (doubles.tagged "docker.io" "library/nginx" "latest")
       doubles.all_on;
     mkRequest tt doubles.acr_image
       (doubles.tagged "myregistry.azurecr.io" "my-repo" "latest") doubles.all_off]
    (mkState doubles.heap0 0 []) =
  Returned
    [(Some "ecr:123456789012.dkr.ecr.us-west-2.amazonaws.com/my-repo:v1", None);
     (None, None);
     (None, Some "acr: unconfigured provider")]
    (mkState doubles.heap0 2
       [ECRLogin (Some 2%positive) tt true doubles.ecr_image;
        ACRLogin (Some 4%positive) tt false doubles.acr_image
          (doubles.tagged "myregistry.azurecr.io" "my-repo" "latest")]) /\
  exists ks : list (Call unit),
    [ECRLogin (Some 2%positive) tt true doubles.ecr_image;
     ACRLogin (Some 4%positive) tt false doubles.acr_image
       (doubles.tagged "myregistry.azurecr.io" "my-repo" "latest")] = [] ++ ks /\
    Call_provider unit <$> ks = [oci.ProviderAWS; oci.ProviderAzure].
Proof.
  split; [reflexivity|].
  assert (Hrun :
    logins0 (Some 1%positive)
      [mkRequest tt doubles.ecr_image (doubles.tagged doubles.ecr_host "my-repo" "v1")
         doubles.all_on;
       mkRequest tt doubles.hub_image (doubles.tagged "docker.io" "library/nginx" "latest")
         doubles.all_on;
       mkRequest tt doubles.acr_image
         (doubles.tagged "myregistry.azurecr.io" "my-repo" "latest") doubles.all_off]
      (mkState doubles.heap0 0 []) =
    Returned
      [(Some "ecr:123456789012.dkr.ecr.us-west-2.amazonaws.com/my-repo:v1", None);
       (None, None);
       (None, Some "acr: unconfigured provider")]
      (mkState doubles.heap0 2
         [ECRLogin (Some 2%positive) tt true doubles.ecr_image;
          ACRLogin (Some 4%positive) tt false doubles.acr_image
            (doubles.tagged "myregistry.azurecr.io" "my-repo" "latest")]))
    by (vm_compute; reflexivity).
  split; [exact Hrun|].
  exact (proj2 (proj2
    (Logins_call_record doubles.ParseImage doubles.gcp_ValidHost
       doubles.azure_ValidHost unit string string nat
       doubles.aws_Client_Login doubles.gcp_Client_Login doubles.azure_Client_Login
       1%positive doubles.manager0 _ (mkState doubles.heap0 0 []) _ _ eq_refl Hrun))).
Defined.

(** The ECR client overridden with the spare one at 5 and then with the
    one at 2 again, in one chain. *)
Lemma With_Client_last_wins_witness :
  doubles.heap0 !! 1%positive = Some (ManagerObj doubles.manager0) /\
  bind (WithECRClient unit nat (Some 1%positive) (Some 5%positive))
    (fun m1 => WithECRClient unit nat m1 (Some 2%positive))
    (mkState doubles.heap0 0 []) =
  WithECRClient unit nat (Some 1%positive) (Some 2%positive) (mkState doubles.heap0 0 []).
Proof.
  split; [reflexivity|].
  exact (proj1 (With_Client_last_wins unit nat 1%positive doubles.manager0
                  (Some 5%positive) (Some 2%positive) (mkState doubles.heap0 0 [])
                  eq_refl)).
Defined.

(** The GCR client set to nil and then put back. *)
Lemma With_Client_restore_witness :
  doubles.heap0 !! 1%positive = Some (ManagerObj doubles.manager0) /\
  bind (WithGCRClient unit nat (Some 1%positive) None)
    (fun m1 => WithGCRClient unit nat m1 (gcr doubles.manager0))
    (mkState doubles.heap0 0 []) =
  Returned (Some 1%positive) (mkState doubles.heap0 0 []).
Proof.
  split; [reflexivity|].
  exact (proj1 (proj2 (With_Client_restore unit nat 1%positive doubles.manager0
                         None (mkState doubles.heap0 0 []) eq_refl))).
Defined.

(** The three clients overridden in the order ACR, ECR, GCR. *)
Lemma With_Client_chain_order_witness :
  doubles.heap0 !! 1%positive = Some (ManagerObj doubles.manager0) /\
  bind (WithACRClient unit nat (Some 1%positive) None)
    (fun m1 => bind (WithECRClient unit nat m1 (Some 5%positive))
       (fun m2 => WithGCRClient unit nat m2 (Some 3%positive)))
    (mkState doubles.heap0 0 []) =
  Returned (Some 1%positive)
    (mkState
       (<[1%positive := ManagerObj (mkManager (Some 5%positive) (Some 3%positive) None)]>
          doubles.heap0) 0 []).
Proof.
  split; [reflexivity|].
  exact (proj1 (proj2 (proj2 (proj2 (proj2
           (With_Client_chain_order unit nat 1%positive doubles.manager0
              (Some 5%positive) (Some 3%positive) None (mkState doubles.heap0 0 [])
              eq_refl)))))).
Defined.

(** A second manager at 6 with no clients: overriding its ECR client
    leaves the manager at 1 as it was. *)
Lemma With_Client_other_manager_witness :
  6%positive ≠ 1%positive /\
  <[6%positive := ManagerObj (mkManager None None None)]> doubles.heap0 !! 6%positive =
    Some (ManagerObj (mkManager None None None)) /\
  <[6%positive := ManagerObj (mkManager None None None)]> doubles.heap0 !! 1%positive =
    Some (ManagerObj doubles.manager0) /\
  WithECRClient unit nat ∈
    [WithECRClient unit nat; WithGCRClient unit nat; WithACRClient unit nat] /\
  exists s1,
    WithECRClient unit nat (Some 6%positive) (Some 5%positive)
      (mkState (<[6%positive := ManagerObj (mkManager None None None)]> doubles.heap0) 0 [])
      = Returned (Some 6%positive) s1 /\
    heap unit nat s1 !! 1%positive = Some (ManagerObj doubles.manager0).
Proof.
  assert (Hne : 6%positive ≠ 1%positive) by discriminate.
  assert (Hin : WithECRClient unit nat ∈
            [WithECRClient unit nat; WithGCRClient unit nat; WithACRClient unit nat])
    by apply list_elem_of_here.
  assert (Hl6 :
    <[6%positive := ManagerObj (mkManager None None None)]> doubles.heap0 !! 6%positive =
      Some (ManagerObj (mkManager None None None))) by reflexivity.
  assert (Hl1 :
    <[6%positive := ManagerObj (mkManager None None None)]> doubles.heap0 !! 1%positive =
      Some (ManagerObj doubles.manager0)) by reflexivity.
  split; [exact Hne|]. split; [exact Hl6|]. split; [exact Hl1|]. split; [exact Hin|].
  destruct (With_Client_other_manager doubles.ParseImage doubles.gcp_ValidHost
              doubles.azure_ValidHost unit string string nat
              doubles.aws_Client_Login doubles.gcp_Client_Login doubles.azure_Client_Login
              6%positive 1%positive (mkManager None None None) doubles.manager0
              (Some 5%positive)
              (mkState (<[6%positive := ManagerObj (mkManager None None None)]>
                          doubles.heap0) 0 [])
              Hne Hl6 Hl1 (WithECRClient unit nat) Hin)
    as (s1 & Hset & Hkept & _).
  exists s1. split; [exact Hset | exact Hkept].
Defined.

End login.
